(** * Review service: sentiment analyzer, repository and service layer

    A shallow embedding of [app.py]: the keyword classifier
    [SentimentAnalyzer.analyze], the SQLite-backed [ReviewRepository], the
    [ReviewService] that coordinates them, and the GET and DELETE route
    handlers.

    Python strings are sequences of Unicode code points, the [reviews] table
    is a rowid-keyed list of rows together with the AUTOINCREMENT counter,
    and every method of the repository and of the service is a function from
    the database before the call to either an exception or a value and the
    database after it. *)

From Stdlib Require Import ZArith List Bool String Ascii Lia Sorted.
Import ListNotations.
Local Open Scope Z_scope.

(* ================================================================= *)
(** ** Python strings *)

(** A [str] is its sequence of code points. *)
Definition str := list Z.

(** String literals of the source are written as they are in [app.py] and
    decoded from the UTF-8 bytes of the literal. [decode_from acc bs] reads
    the bytes [bs] with [acc] the bits collected so far of the code point
    being read. *)
Fixpoint decode_from (acc : Z) (bs : list Z) : str :=
  match bs with
  | [] => []
  | b :: rest =>
      if b <? 0x80 then b :: decode_from 0 rest
      else if b <? 0xC0 then
        let acc' := acc * 64 + (b - 0x80) in
        match rest with
        | next :: _ =>
            if (0x80 <=? next) && (next <? 0xC0)
            then decode_from acc' rest
            else acc' :: decode_from 0 rest
        | [] => [acc']
        end
      else if b <? 0xE0 then decode_from (b - 0xC0) rest
      else if b <? 0xF0 then decode_from (b - 0xE0) rest
      else decode_from (b - 0xF0) rest
  end.

Fixpoint bytes_of (s : string) : list Z :=
  match s with
  | EmptyString => []
  | String a s' => Z.of_N (N_of_ascii a) :: bytes_of s'
  end.

Definition utf8 (s : string) : str := decode_from 0 (bytes_of s).

(** [str.__eq__]: equality of the code point sequences. *)
Fixpoint str_eqb (a b : str) : bool :=
  match a, b with
  | [], [] => true
  | x :: a', y :: b' => (x =? y) && str_eqb a' b'
  | _, _ => false
  end.

(** [str.isspace] on one character: the code points that [str.strip]
    removes when called without an argument. *)
Definition isspace (c : Z) : bool :=
  ((0x09 <=? c) && (c <=? 0x0D)) || ((0x1C <=? c) && (c <=? 0x20))
  || (c =? 0x85) || (c =? 0xA0) || (c =? 0x1680)
  || ((0x2000 <=? c) && (c <=? 0x200A))
  || (c =? 0x2028) || (c =? 0x2029) || (c =? 0x202F) || (c =? 0x205F)
  || (c =? 0x3000).

Fixpoint lstrip (s : str) : str :=
  match s with
  | [] => []
  | c :: s' => if isspace c then lstrip s' else s
  end.

Definition rstrip (s : str) : str := rev (lstrip (rev s)).

(** [str.strip()] *)
Definition strip (s : str) : str := rstrip (lstrip s).

(** Truth value of a string: [not s] holds of the empty string only. *)
Definition nonempty (s : str) : bool :=
  match s with [] => false | _ :: _ => true end.

Fixpoint startswith (w s : str) : bool :=
  match w, s with
  | [], _ => true
  | _ :: _, [] => false
  | x :: w', y :: s' => (x =? y) && startswith w' s'
  end.

(** [w in s] for strings: [w] occurs in [s] as a contiguous substring. *)
Fixpoint contains (w s : str) : bool :=
  startswith w s ||
  match s with
  | [] => false
  | _ :: s' => contains w s'
  end.

(** What [w in s] decides: [s] is some prefix, then [w], then some suffix. *)
Definition occurs_in (w s : str) : Prop :=
  exists before after, s = before ++ w ++ after.

(** [any(w in s for w in words)] *)
Definition any_in (words : list str) (s : str) : bool :=
  existsb (fun w => contains w s) words.

(** [str.lower] is the runtime's Unicode case mapping and is a parameter of
    the development. [lower_basic] is that mapping on the basic Latin and
    Cyrillic capitals (code points elsewhere are kept); the examples are
    evaluated with it. *)
Definition lower_char (c : Z) : Z :=
  if (0x41 <=? c) && (c <=? 0x5A) then c + 32
  else if (0x400 <=? c) && (c <=? 0x40F) then c + 80
  else if (0x410 <=? c) && (c <=? 0x42F) then c + 32
  else c.

Definition lower_basic (s : str) : str := map lower_char s.

(* ================================================================= *)
(** ** Values, exceptions and the state of the database *)

(** The values a caller can pass where the source expects a string. *)
Inductive pyobj : Type :=
| PyNone
| PyBool (b : bool)
| PyInt (n : Z)
| PyStr (s : str).

(** The exceptions of the calls. [UnicodeEncodeError] is a subclass of
    ValueError in Python (an [except ValueError] handles it too) and carries
    its [reason]; [SqliteError] stands for [sqlite3.Error] and its
    subclasses. *)
Inductive exn : Type :=
| ValueError (msg : string)
| UnicodeEncodeError (reason : string)
| OverflowError (msg : string)
| SqliteError (msg : string).

(** The text an exception carries. *)
Definition exn_str (e : exn) : string :=
  match e with
  | ValueError m => m
  | UnicodeEncodeError m => m
  | OverflowError m => m
  | SqliteError m => m
  end.

Inductive result (A : Type) : Type :=
| Ok (a : A)
| Raise (e : exn).

Arguments Ok {A} a.
Arguments Raise {A} e.

(** A row of the [reviews] table, which is also the dictionary that the
    repository returns for it. *)
Record Review : Type := mkReview {
  id : Z;
  text : str;
  sentiment : str;
  created_at : str
}.

(** The database file: the rows of [reviews] in the order of a table scan
    and [seq], the largest id handed out so far, which AUTOINCREMENT keeps
    in [sqlite_sequence]. The queries of the source have no ORDER BY: the
    order of a listing is the order in which the engine scans the table,
    and SQLite scans a table by ascending rowid, which is [id] here. That
    order is the engine's and is part of this model of it, not of the code.
    I/O failures and the size limits of the engine are outside the model;
    the values that cannot be bound to a statement are inside it. *)
Record DB : Type := mkDB {
  rows : list Review;
  seq : Z
}.

(** The largest rowid: INTEGER is a signed 64-bit number. *)
Definition max_rowid : Z := 9223372036854775807.

(** The integers that can be bound to a statement; [sqlite3] raises
    OverflowError for the others. *)
Definition int64 (n : Z) : bool :=
  (- 9223372036854775808 <=? n) && (n <=? max_rowid).

Definition surrogate (c : Z) : bool := (0xD800 <=? c) && (c <=? 0xDFFF).

(** The strings that can be bound to a statement: they are passed as UTF-8,
    which has no encoding for a surrogate code point; [sqlite3] raises
    UnicodeEncodeError for a string with one. *)
Definition encodable (s : str) : bool :=
  forallb (fun c => negb (surrogate c)) s.

(** A filter that can be bound when it has to be. *)
Definition bindable (sentiment_filter : option str) : Prop :=
  match sentiment_filter with
  | Some s => encodable s = true
  | None => True
  end.

Definition empty_db : DB := mkDB [] 0.

(** A method call: the database before it to an exception or the returned
    value and the database after it. *)
Definition M (A : Type) : Type := DB -> result (A * DB).

Definition ret {A} (a : A) : M A := fun db => Ok (a, db).

Definition raise {A} (e : exn) : M A := fun _ => Raise e.

Definition bind {A B} (m : M A) (k : A -> M B) : M B :=
  fun db =>
    match m db with
    | Ok (a, db') => k a db'
    | Raise e => Raise e
    end.

(** A computation without access to the database. *)
Definition lift {A} (r : result A) : M A :=
  fun db =>
    match r with
    | Ok a => Ok (a, db)
    | Raise e => Raise e
    end.

Notation "x <- m ;; k" := (bind m (fun x => k))
  (at level 61, m at next level, right associativity).

(** The database after a call; a call that raises leaves it as it was. *)
Definition db_after {A} (m : M A) (db : DB) : DB :=
  match m db with
  | Ok (_, db') => db'
  | Raise _ => db
  end.

(* ================================================================= *)
(** ** SentimentAnalyzer *)

Definition positive : str := utf8 "positive".
Definition negative : str := utf8 "negative".
Definition neutral : str := utf8 "neutral".

Definition POSITIVE_WORDS : list str := map utf8
  [ "хорош"; "хорошо"; "отличн"; "прекрасн"; "люблю";
    "нравится"; "супер"; "класс"; "восхитительн"; "лучш";
    "замечательн"; "превосходн"; "удобн"; "рекомендую"; "доволен";
    "великолепн"; "безупречн"; "идеальн"; "прекрасно"; "отлично" ]%string.

Definition NEGATIVE_WORDS : list str := map utf8
  [ "плох"; "плохо"; "ужасн"; "ненавиж"; "отвратительн";
    "кошмар"; "разочарован"; "неудобн"; "худш"; "недостаток";
    "проблем"; "недостат"; "недоволен"; "некачествен"; "ужасно";
    "недоволь"; "отвратно"; "отвратительно"; "мерзост"; "неприятн";
    "не нравится" ]%string.

Definition negative_phrases : list str := map utf8
  [ "не нравится"; "не люблю"; "не хочу" ]%string.

Section App.

(** [str.lower] *)
Variable lower : str -> str.

(** [SentimentAnalyzer.analyze] *)
Definition analyze (text : pyobj) : result str :=
  match text with
  | PyStr text =>
      if negb (nonempty (strip text)) then Ok neutral
      else
        let text_lower := lower text in
        if any_in negative_phrases text_lower then Ok negative
        else if any_in POSITIVE_WORDS text_lower then Ok positive
        else if any_in NEGATIVE_WORDS text_lower then Ok negative
        else Ok neutral
  | _ => Raise (ValueError "Text must be a string")
  end.

(* ================================================================= *)
(** ** ReviewRepository *)

(** [_init_db]: CREATE TABLE IF NOT EXISTS. A file without the table gets
    an empty one; an existing table is kept. *)
Definition _init_db (file : option DB) : DB :=
  match file with
  | None => empty_db
  | Some db => db
  end.

(** The row is stored under its rowid: before the first row with a larger
    key. *)
Fixpoint insert_row (r : Review) (l : list Review) : list Review :=
  match l with
  | [] => [r]
  | x :: l' => if id r <? id x then r :: l else x :: insert_row r l'
  end.

(** [ReviewRepository.create]; [now] is [datetime.utcnow().isoformat()] at
    the time of the call. The three parameters are bound first; then the
    INSERT runs, and [cursor.lastrowid] is the id that AUTOINCREMENT chose:
    one more than the largest id ever used, or no id at all, with the error
    SQLITE_FULL, when that was the largest rowid. A call that raises leaves
    the table as it was. *)
Definition create (now : str) (text sentiment : str) : M Review :=
  fun db =>
    let created_at := now in
    if negb (encodable text && encodable sentiment && encodable created_at)
    then Raise (UnicodeEncodeError "surrogates not allowed")
    else if max_rowid <=? seq db
    then Raise (SqliteError "database or disk is full")
    else
      let lastrowid := seq db + 1 in
      let row := mkReview lastrowid text sentiment created_at in
      Ok (row, mkDB (insert_row row (rows db)) lastrowid).

(** SELECT * FROM reviews, with WHERE sentiment = ? when [params] holds a
    value. *)
Definition select_reviews (params : option str) (db : DB) : list Review :=
  match params with
  | None => rows db
  | Some s => filter (fun r => str_eqb (sentiment r) s) (rows db)
  end.

(** The rows a call [find_all(sentiment)] asks for. *)
Definition selected (sentiment_filter : option str) (r : Review) : Prop :=
  match sentiment_filter with
  | Some (c :: s) => sentiment r = c :: s
  | _ => True
  end.

(** [ReviewRepository.find_all]: the WHERE clause is added under
    [if sentiment:], that is for a string that is not empty, and its
    parameter is bound before the query runs. *)
Definition find_all (sentiment : option str) : M (list Review) :=
  fun db =>
    let params :=
      match sentiment with
      | Some s => if nonempty s then Some s else None
      | None => None
      end in
    match params with
    | Some s =>
        if encodable s then Ok (select_reviews params db, db)
        else Raise (UnicodeEncodeError "surrogates not allowed")
    | None => Ok (select_reviews params db, db)
    end.

(** [ReviewRepository.delete]: DELETE FROM reviews WHERE id = ?, with the
    id bound first, and [cursor.rowcount] is the number of rows removed. *)
Definition delete (review_id : Z) : M bool :=
  fun db =>
    if negb (int64 review_id)
    then Raise (OverflowError "Python int too large to convert to SQLite INTEGER")
    else
      let kept := filter (fun r => negb (id r =? review_id)) (rows db) in
      let rowcount :=
        Z.of_nat (List.length (rows db)) - Z.of_nat (List.length kept) in
      Ok (0 <? rowcount, mkDB kept (seq db)).

(* ================================================================= *)
(** ** ReviewService *)

(** [ReviewService.create_review] *)
Definition create_review (now : str) (text : pyobj) : M Review :=
  match text with
  | PyStr t =>
      if negb (nonempty (strip t))
      then raise (ValueError "Text must be a non-empty string")
      else
        sentiment <- lift (analyze text) ;;
        create now t sentiment
  | _ => raise (ValueError "Text must be a non-empty string")
  end.

(** [ReviewService.get_reviews] *)
Definition get_reviews (sentiment : option str) : M (list Review) :=
  find_all sentiment.

(** [ReviewService.delete_review] *)
Definition delete_review (review_id : Z) : M bool :=
  delete review_id.

(* ================================================================= *)
(** ** The DELETE route *)

Inductive delete_body : Type :=
| BadId
| Deleted (deleted_id : Z)
| NotFound (requested_id : Z)
| DatabaseFailed (details : string)
| InternalError (details : string).

(** [delete_review] of the route [/reviews/<int:review_id>]: the response
    body and the HTTP status. The function takes any integer; the URL
    converter of the route passes it the numbers written with digits only,
    none of them negative: a request with another id is answered by the
    routing (404) and does not reach it. *)
Definition delete_review_route (review_id : Z) : DB -> (delete_body * Z) * DB :=
  fun db =>
    if review_id <=? 0 then ((BadId, 400), db)
    else
      match delete_review review_id db with
      | Ok (true, db') => ((Deleted review_id, 200), db')
      | Ok (false, db') => ((NotFound review_id, 404), db')
      | Raise (SqliteError e) => ((DatabaseFailed e, 500), db)
      | Raise e => ((InternalError (exn_str e), 500), db)
      end.

(* ================================================================= *)
(** ** The GET route *)

Inductive get_body : Type :=
| ReviewList (reviews : list Review)
| ServerError.

(** [get_reviews] of the route [/reviews]; [sentiment] is
    [request.args.get("sentiment")]: the value of the query parameter, or
    None without one. *)
Definition get_reviews_route (sentiment : option str) : DB -> (get_body * Z) * DB :=
  fun db =>
    match get_reviews sentiment db with
    | Ok (reviews, db') => ((ReviewList reviews, 200), db')
    | Raise _ => ((ServerError, 500), db)
    end.

(* ================================================================= *)
(** ** Histories of service calls *)

Inductive call : Type :=
| CreateReview (now : str) (text : pyobj)
| GetReviews (sentiment : option str)
| DeleteReview (review_id : Z).

(** The database after one call of the service. *)
Definition step (c : call) (db : DB) : DB :=
  match c with
  | CreateReview now text => db_after (create_review now text) db
  | GetReviews sentiment => db_after (get_reviews sentiment) db
  | DeleteReview review_id => db_after (delete_review review_id) db
  end.

(** The databases that calls of the service produce from a new file. *)
Inductive reachable : DB -> Prop :=
| reachable_init : reachable (_init_db None)
| reachable_step : forall c db, reachable db -> reachable (step c db).

(** The three sentiment values. *)
Definition is_sentiment (s : str) : Prop :=
  s = positive \/ s = negative \/ s = neutral.

(** What holds of every database the service produces: ids ascend strictly
    along the table, none is below one or above the counter, and every row
    carries a text that is not blank and one of the three sentiments. *)
Definition row_ok (db : DB) (r : Review) : Prop :=
  1 <= id r <= seq db /\ strip (text r) <> [] /\ is_sentiment (sentiment r).

Definition consistent (db : DB) : Prop :=
  0 <= seq db
  /\ StronglySorted Z.lt (map id (rows db))
  /\ Forall (row_ok db) (rows db).

(** The database after a sequence of calls, the first call first. *)
Fixpoint run (cs : list call) (db : DB) : DB :=
  match cs with
  | [] => db
  | c :: cs' => run cs' (step c db)
  end.

(** The calls that ask for a record to be stored and can be served:
    [create_review] with a string that is not blank and can be bound, at a
    time that can be bound. *)
Definition accepted (c : call) : bool :=
  match c with
  | CreateReview now (PyStr t) =>
      nonempty (strip t) && encodable t && encodable now
  | _ => false
  end.





End App.

(** Two databases for the examples: a new file after one review, and after
    a second one. *)
Definition noon : str := utf8 "2024-05-01T12:00:00".

Definition one_review : DB :=
  step lower_basic (CreateReview noon (PyStr (utf8 "Хороший товар")))
    (_init_db None).

Definition two_reviews : DB :=
  step lower_basic (CreateReview noon (PyStr (utf8 "Это ужасный продукт!")))
    one_review.

Definition three_reviews : DB :=
  step lower_basic (CreateReview noon (PyStr (utf8 "Отличный продукт!")))
    two_reviews.

(* ================================================================= *)
(** ** Strings: comparison, stripping and substring search *)

Lemma str_eqb_eq (a b : str) : str_eqb a b = true <-> a = b.
Proof.
  revert b; induction a as [|x a IH]; intros [|y b]; simpl;
    try (split; [discriminate | congruence]); try tauto.
  rewrite andb_true_iff, Z.eqb_eq, IH.
  split; [intros [-> ->]; reflexivity | intros E; inversion E; auto].
Qed.

Lemma str_eqb_neq (a b : str) : str_eqb a b = false <-> a <> b.
Proof.
  rewrite <- str_eqb_eq. destruct (str_eqb a b); split; congruence.
Qed.

Lemma lstrip_nil (s : str) : lstrip s = [] <-> forallb isspace s = true.
Proof.
  induction s as [|c s IH]; simpl; [tauto|].
  destruct (isspace c); simpl; [exact IH | split; discriminate].
Qed.

Lemma lstrip_head (s : str) (c : Z) (r : str) :
  lstrip s = c :: r -> isspace c = false.
Proof.
  induction s as [|x s IH]; simpl; [discriminate|].
  destruct (isspace x) eqn:E; [exact IH|].
  intros H; inversion H; subst; exact E.
Qed.

Lemma forallb_rev (f : Z -> bool) (s : str) :
  forallb f (rev s) = forallb f s.
Proof.
  induction s as [|c s IH]; simpl; [reflexivity|].
  rewrite forallb_app, IH; simpl. rewrite andb_true_r. apply andb_comm.
Qed.

(** A string strips to nothing exactly when all of it is whitespace. *)
Lemma strip_nil (s : str) : strip s = [] <-> forallb isspace s = true.
Proof.
  unfold strip, rstrip. split.
  - intros H. apply lstrip_nil.
    destruct (lstrip s) as [|c r] eqn:E; [reflexivity|].
    apply lstrip_head in E.
    assert (L : lstrip (rev (c :: r)) = []).
    { destruct (lstrip (rev (c :: r))) as [|y l]; [reflexivity|].
      simpl in H. destruct (rev l); discriminate. }
    apply lstrip_nil in L. rewrite forallb_rev in L. simpl in L.
    rewrite E in L. discriminate.
  - intros H. apply lstrip_nil in H. rewrite H. reflexivity.
Qed.

Lemma startswith_spec (w s : str) :
  startswith w s = true <-> exists after, s = w ++ after.
Proof.
  revert s; induction w as [|x w IH]; intros s; simpl.
  - split; [intros _; exists s; reflexivity | reflexivity].
  - destruct s as [|y s].
    + split; [discriminate | intros [a H]; discriminate].
    + rewrite andb_true_iff, Z.eqb_eq, IH. split.
      * intros [-> [a ->]]. exists a. reflexivity.
      * intros [a H]. inversion H; subst. split; [reflexivity | exists a; reflexivity].
Qed.

(** [contains] decides [occurs_in]. *)
Lemma contains_spec (w s : str) : contains w s = true <-> occurs_in w s.
Proof.
  unfold occurs_in. induction s as [|y s IH].
  - simpl. rewrite orb_false_r, startswith_spec. split.
    + intros [a H]. exists [], a. exact H.
    + intros [b [a H]]. destruct b as [|z b]; [exists a; exact H | discriminate].
  - cbn [contains]. rewrite orb_true_iff, startswith_spec, IH. split.
    + intros [[a H] | [b [a H]]].
      * exists [], a. exact H.
      * exists (y :: b), a. rewrite H. reflexivity.
    + intros [b [a H]]. destruct b as [|z b].
      * left. exists a. exact H.
      * right. inversion H; subst. exists b, a. reflexivity.
Qed.

Lemma any_in_spec (words : list str) (s : str) :
  any_in words s = true <-> exists w, In w words /\ occurs_in w s.
Proof.
  unfold any_in. rewrite existsb_exists.
  split; intros [w [I H]]; exists w; split; auto; apply contains_spec; exact H.
Qed.

Lemma in_words (w : str) (words : list str) :
  existsb (str_eqb w) words = true -> In w words.
Proof.
  rewrite existsb_exists. intros [x [I E]].
  apply str_eqb_eq in E. subst x. exact I.
Qed.

Lemma any_in_none (words : list str) (s : str) :
  any_in words s = false <-> forall w, In w words -> ~ occurs_in w s.
Proof.
  split.
  - intros H w I O.
    assert (T : any_in words s = true) by (apply any_in_spec; exists w; auto).
    congruence.
  - intros H. destruct (any_in words s) eqn:E; [|reflexivity].
    apply any_in_spec in E. destruct E as [w [I O]]. destruct (H w I O).
Qed.

(** A word with a character that is not whitespace does not occur in a
    blank string. *)
Lemma blank_has_no_word (w s : str) :
  forallb isspace s = true -> forallb isspace w = false -> ~ occurs_in w s.
Proof.
  intros B W [b [a ->]].
  rewrite !forallb_app in B. apply andb_true_iff in B. destruct B as [_ B].
  apply andb_true_iff in B. destruct B as [B _]. congruence.
Qed.

Lemma blank_any_in (words : list str) (s : str) :
  forallb (fun w => negb (forallb isspace w)) words = true ->
  forallb isspace s = true -> any_in words s = false.
Proof.
  intros W B. apply any_in_none. intros w I.
  apply blank_has_no_word; [exact B|].
  rewrite forallb_forall in W. apply W in I. apply negb_true_iff in I. exact I.
Qed.

Lemma lower_char_space (c : Z) : isspace c = true -> lower_char c = c.
Proof.
  unfold isspace, lower_char. intros H.
  destruct ((0x41 <=? c) && (c <=? 0x5A)) eqn:E1;
    [|destruct ((0x400 <=? c) && (c <=? 0x40F)) eqn:E2;
      [|destruct ((0x410 <=? c) && (c <=? 0x42F)) eqn:E3; [|reflexivity]]];
    exfalso;
    match goal with
    | E : _ = true |- _ => apply andb_true_iff in E; rewrite !Z.leb_le in E
    end;
    rewrite !orb_true_iff, !andb_true_iff, !Z.leb_le, !Z.eqb_eq in H; lia.
Qed.

(** [lower_basic] keeps blank strings, as [str.lower] does. *)
Lemma lower_basic_blank (s : str) : strip s = [] -> lower_basic s = s.
Proof.
  rewrite strip_nil. unfold lower_basic.
  induction s as [|c s IH]; simpl; [reflexivity|].
  intros H. apply andb_true_iff in H. destruct H as [Hc Hs].
  rewrite lower_char_space, IH; auto.
Qed.

(* ================================================================= *)
(** ** The table: insertion, selection and deletion *)

Lemma insert_row_In (r x : Review) (l : list Review) :
  In x (insert_row r l) <-> x = r \/ In x l.
Proof.
  induction l as [|y l IH]; simpl.
  - intuition congruence.
  - destruct (id r <? id y); simpl; rewrite ?IH; intuition congruence.
Qed.

(** A row whose id exceeds every id of the table is stored last. *)
Lemma insert_row_last (r : Review) (l : list Review) :
  Forall (fun x => id x < id r) l -> insert_row r l = l ++ [r].
Proof.
  induction 1 as [|y l Hy Hl IH]; simpl; [reflexivity|].
  destruct (Z.ltb_spec (id r) (id y)); [lia|]. rewrite IH. reflexivity.
Qed.

Lemma sorted_snoc (l : list Z) (n : Z) :
  StronglySorted Z.lt l -> Forall (fun x => x < n) l ->
  StronglySorted Z.lt (l ++ [n]).
Proof.
  induction 1 as [|x l Hl IH Hx]; intros F; simpl.
  - repeat constructor.
  - inversion F; subst. constructor; [apply IH; assumption|].
    apply Forall_app. split; [assumption | repeat constructor; assumption].
Qed.

Lemma sorted_filter (f : Review -> bool) (l : list Review) :
  StronglySorted Z.lt (map id l) -> StronglySorted Z.lt (map id (filter f l)).
Proof.
  induction l as [|x l IH]; simpl; intros S; [constructor|].
  inversion S as [|? ? Sl Fx]; subst.
  destruct (f x); simpl; [|apply IH; assumption].
  constructor; [apply IH; assumption|].
  rewrite Forall_forall in *. intros n I. apply Fx.
  rewrite in_map_iff in *. destruct I as [y [E I]].
  exists y. split; [assumption|]. apply filter_In in I. tauto.
Qed.

(** In a table with ascending ids, the id determines the row. *)
Lemma sorted_id_inj (l : list Review) (r r' : Review) :
  StronglySorted Z.lt (map id l) -> In r l -> In r' l -> id r' = id r -> r' = r.
Proof.
  induction l as [|x l IH]; simpl; intros S I I' E; [contradiction|].
  inversion S as [|? ? Sl Fx]; subst. rewrite Forall_forall in Fx.
  assert (L : forall y, In y l -> id x < id y)
    by (intros y Iy; apply Fx, in_map; exact Iy).
  destruct I as [<-|I], I' as [<-|I']; auto.
  - apply L in I'. lia.
  - apply L in I. lia.
Qed.

Lemma filter_length_le (f : Review -> bool) (l : list Review) :
  (List.length (filter f l) <= List.length l)%nat.
Proof.
  induction l as [|x l IH]; simpl; [lia|]. destruct (f x); simpl; lia.
Qed.

(** Rows were removed exactly when some row fails the test. *)
Lemma filter_length_lt (f : Review -> bool) (l : list Review) :
  (List.length (filter f l) < List.length l)%nat <->
  exists x, In x l /\ f x = false.
Proof.
  induction l as [|x l IH]; simpl.
  - split; [lia | intros [x [[] _]]].
  - pose proof (filter_length_le f l) as Le.
    destruct (f x) eqn:E; simpl.
    + rewrite <- Nat.succ_lt_mono, IH. split.
      * intros [y [I F]]. exists y. auto.
      * intros [y [[<-|I] F]]; [congruence | exists y; auto].
    + split; [intros _; exists x; auto | lia].
Qed.

Lemma filter_all (f : Review -> bool) (l : list Review) :
  (forall x, In x l -> f x = true) -> filter f l = l.
Proof.
  induction l as [|x l IH]; simpl; intros H; [reflexivity|].
  rewrite (H x) by auto. rewrite IH by auto. reflexivity.
Qed.

Lemma filter_none (f : Review -> bool) (l : list Review) :
  (forall x, In x l -> f x = false) -> filter f l = [].
Proof.
  induction l as [|x l IH]; simpl; intros H; [reflexivity|].
  rewrite (H x) by auto. apply IH. auto.
Qed.

(** [delete] answers whether a row had the id, removes the rows that have
    it and leaves the counter alone. *)
Lemma delete_spec (review_id : Z) (db : DB) :
  int64 review_id = true ->
  exists b,
    delete review_id db =
      Ok (b, mkDB (filter (fun r => negb (id r =? review_id)) (rows db)) (seq db))
    /\ (b = true <-> exists r, In r (rows db) /\ id r = review_id).
Proof.
  intros B. unfold delete. rewrite B. cbn [negb].
  eexists. split; [reflexivity|].
  rewrite Z.ltb_lt.
  set (keep := fun r => negb (id r =? review_id)).
  pose proof (filter_length_lt keep (rows db)) as L.
  pose proof (filter_length_le keep (rows db)) as Le.
  split.
  - intros H. destruct L as [L _].
    destruct L as [r [I F]]; [lia|].
    exists r. split; [exact I|]. apply negb_false_iff, Z.eqb_eq in F. exact F.
  - intros [r [I E]]. destruct L as [_ L].
    cut (List.length (filter keep (rows db)) < List.length (rows db))%nat; [lia|].
    apply L. exists r. split; [exact I|]. apply negb_false_iff, Z.eqb_eq. exact E.
Qed.

(** An id that cannot be bound makes [delete] raise. *)
Lemma delete_overflow (review_id : Z) (db : DB) :
  int64 review_id = false ->
  delete review_id db =
    Raise (OverflowError "Python int too large to convert to SQLite INTEGER").
Proof.
  intros B. unfold delete. rewrite B. reflexivity.
Qed.

(** The database after [delete], whether it raised or not. *)
Lemma delete_db_after (review_id : Z) (db : DB) :
  db_after (delete review_id) db = db
  \/ db_after (delete review_id) db =
       mkDB (filter (fun r => negb (id r =? review_id)) (rows db)) (seq db).
Proof.
  unfold db_after. destruct (int64 review_id) eqn:B.
  - destruct (delete_spec review_id db B) as [b [E _]]. rewrite E. auto.
  - rewrite (delete_overflow review_id db B). auto.
Qed.

(** Deleting an id that no row has changes nothing. *)
Lemma delete_absent (review_id : Z) (db : DB) :
  int64 review_id = true ->
  (forall r, In r (rows db) -> id r <> review_id) ->
  delete review_id db = Ok (false, db).
Proof.
  intros B H. unfold delete. rewrite B. cbn [negb].
  rewrite filter_all.
  - rewrite Z.sub_diag. destruct db; reflexivity.
  - intros r I. apply negb_true_iff, Z.eqb_neq. apply H. exact I.
Qed.

Lemma select_reviews_In (params : option str) (db : DB) (r : Review) :
  In r (select_reviews params db) <->
  In r (rows db) /\ match params with Some s => sentiment r = s | None => True end.
Proof.
  destruct params as [s|]; simpl; [|tauto].
  rewrite filter_In, str_eqb_eq. tauto.
Qed.

(** With a filter that can be bound, [find_all] does not raise, leaves the
    database as it is and returns the selected rows. *)
Lemma find_all_spec (f : option str) (db : DB) :
  bindable f ->
  exists l, find_all f db = Ok (l, db)
    /\ (forall r, In r l <-> In r (rows db) /\ selected f r)
    /\ (StronglySorted Z.lt (map id (rows db)) -> StronglySorted Z.lt (map id l)).
Proof.
  intros B. unfold find_all.
  destruct f as [[|c s]|]; cbn [nonempty];
    try (eexists; split; [reflexivity|]; simpl; split; [intros r; tauto | auto]).
  unfold bindable in B. rewrite B. eexists. split; [reflexivity|]. simpl. split.
  - intros r. rewrite filter_In, str_eqb_eq. tauto.
  - apply sorted_filter.
Qed.

(** A filter that is not empty and cannot be bound makes [find_all]
    raise. *)
Lemma find_all_unencodable (s : str) (db : DB) :
  s <> [] -> encodable s = false ->
  find_all (Some s) db = Raise (UnicodeEncodeError "surrogates not allowed").
Proof.
  intros N B. unfold find_all. destruct s as [|c u]; [congruence|].
  cbn [nonempty]. rewrite B. reflexivity.
Qed.

(** [find_all] returns the database it was given. *)
Lemma find_all_same_db (f : option str) (db db' : DB) (l : list Review) :
  find_all f db = Ok (l, db') -> db' = db.
Proof.
  unfold find_all.
  destruct f as [[|c s]|]; cbn [nonempty];
    try (intros H; inversion H; reflexivity).
  destruct (encodable (c :: s)); intros H; inversion H; reflexivity.
Qed.

Lemma find_all_db_after (f : option str) (db : DB) :
  db_after (find_all f) db = db.
Proof.
  unfold db_after. destruct (find_all f db) as [[l db']|e] eqn:E; [|reflexivity].
  apply find_all_same_db in E. exact E.
Qed.

(** What [create] does when it returns, and that otherwise the database
    stays. *)
Lemma create_inv (now t s : str) (db db' : DB) (r : Review) :
  create now t s db = Ok (r, db') ->
  encodable t = true /\ encodable s = true /\ encodable now = true
  /\ seq db < max_rowid
  /\ r = mkReview (seq db + 1) t s now
  /\ db' = mkDB (insert_row r (rows db)) (seq db + 1).
Proof.
  unfold create.
  destruct (encodable t), (encodable s), (encodable now); simpl;
    try discriminate.
  destruct (Z.leb_spec max_rowid (seq db)) as [L | L]; [discriminate|].
  intros E. inversion E; subst. auto 10.
Qed.

Lemma create_ok (now t s : str) (db : DB) :
  encodable t = true -> encodable s = true -> encodable now = true ->
  seq db < max_rowid ->
  create now t s db =
    Ok (mkReview (seq db + 1) t s now,
        mkDB (insert_row (mkReview (seq db + 1) t s now) (rows db)) (seq db + 1)).
Proof.
  intros Et Es En L. unfold create. rewrite Et, Es, En. simpl.
  destruct (Z.leb_spec max_rowid (seq db)); [lia | reflexivity].
Qed.

(* ================================================================= *)
(** ** Properties of the analyzer and of the service *)

Section Properties.

Variable lower : str -> str.

(** Whitespace has no case: [str.lower] returns a blank string as it is. *)
Hypothesis lower_blank : forall s, strip s = [] -> lower s = s.

Lemma nonempty_strip (t : str) :
  negb (nonempty (strip t)) = true <-> strip t = [].
Proof.
  destruct (strip t); simpl; split; congruence.
Qed.

(** No word of the lexicon or of the phrase list is blank, so none occurs
    in the lowercased form of a blank text. *)
Lemma blank_text_no_word (words : list str) (t : str) :
  forallb (fun w => negb (forallb isspace w)) words = true ->
  strip t = [] -> any_in words (lower t) = false.
Proof.
  intros W B. rewrite (lower_blank _ B).
  apply blank_any_in; [exact W | apply strip_nil; exact B].
Qed.

Lemma analyze_is_sentiment (t : str) :
  exists s, analyze lower (PyStr t) = Ok s /\ is_sentiment s.
Proof.
  unfold analyze.
  generalize (negb (nonempty (strip t))) (any_in negative_phrases (lower t))
    (any_in POSITIVE_WORDS (lower t)) (any_in NEGATIVE_WORDS (lower t)).
  intros blank phrase pos neg.
  assert (Pos : is_sentiment positive) by (left; reflexivity).
  assert (Neg : is_sentiment negative) by (right; left; reflexivity).
  assert (Neu : is_sentiment neutral) by (right; right; reflexivity).
  destruct blank; [exists neutral; split; [reflexivity | exact Neu]|].
  destruct phrase; [exists negative; split; [reflexivity | exact Neg]|].
  destruct pos; [exists positive; split; [reflexivity | exact Pos]|].
  destruct neg; [exists negative | exists neutral];
    (split; [reflexivity | assumption]).
Qed.

(** A call of [create_review] that returns was given a string that is not
    blank, and stored it with the analyzer's answer under the next id. *)
Lemma create_review_inv (now : str) (v : pyobj) (db db' : DB) (r : Review) :
  create_review lower now v db = Ok (r, db') ->
  exists t s, v = PyStr t /\ strip t <> [] /\ analyze lower v = Ok s
    /\ r = mkReview (seq db + 1) t s now
    /\ db' = mkDB (insert_row r (rows db)) (seq db + 1).
Proof.
  destruct v as [| b | n | t]; try discriminate.
  unfold create_review.
  destruct (negb (nonempty (strip t))) eqn:E; [discriminate|].
  destruct (analyze_is_sentiment t) as [s [A _]].
  unfold bind, lift. rewrite A. intros H. apply create_inv in H.
  destruct H as [_ [_ [_ [_ [-> ->]]]]]. exists t, s. repeat split; auto.
  intros B. apply nonempty_strip in B. congruence.
Qed.

(** Such a call was given a text and a time that can be bound, and found
    ids left. *)
Lemma create_review_inv_bound
    (now : str) (t : str) (db db' : DB) (r : Review) :
  create_review lower now (PyStr t) db = Ok (r, db') ->
  encodable t = true /\ encodable now = true /\ seq db < max_rowid.
Proof.
  unfold create_review.
  destruct (negb (nonempty (strip t))) eqn:E; [discriminate|].
  destruct (analyze_is_sentiment t) as [s [A _]].
  unfold bind, lift. rewrite A. intros H. apply create_inv in H. tauto.
Qed.

Lemma sentiment_encodable (s : str) : is_sentiment s -> encodable s = true.
Proof.
  intros [-> | [-> | ->]]; reflexivity.
Qed.

Lemma create_review_ok (now t : str) (db : DB) :
  strip t <> [] ->
  encodable t = true -> encodable now = true -> seq db < max_rowid ->
  exists s, analyze lower (PyStr t) = Ok s /\
    create_review lower now (PyStr t) db =
      Ok (mkReview (seq db + 1) t s now,
          mkDB (insert_row (mkReview (seq db + 1) t s now) (rows db)) (seq db + 1)).
Proof.
  intros N Et En L. destruct (analyze_is_sentiment t) as [s [A S]].
  exists s. split; [exact A|].
  unfold create_review.
  destruct (negb (nonempty (strip t))) eqn:E.
  - apply nonempty_strip in E. contradiction.
  - unfold bind, lift. rewrite A.
    apply create_ok; auto. apply sentiment_encodable. exact S.
Qed.

(** A text that is not blank and cannot be bound makes [create_review]
    raise the error of the binding. *)
Lemma create_review_unencodable (now t : str) (db : DB) :
  strip t <> [] -> encodable t = false ->
  create_review lower now (PyStr t) db =
    Raise (UnicodeEncodeError "surrogates not allowed").
Proof.
  intros N Et. destruct (analyze_is_sentiment t) as [s [A _]].
  unfold create_review.
  destruct (negb (nonempty (strip t))) eqn:E.
  - apply nonempty_strip in E. contradiction.
  - unfold bind, lift. rewrite A. unfold create. rewrite Et. reflexivity.
Qed.

(** [create_review] raises its own ValueError for no string that is not
    blank. *)
Lemma create_review_nonblank (now t : str) (db : DB) (msg : string) :
  strip t <> [] -> create_review lower now (PyStr t) db <> Raise (ValueError msg).
Proof.
  intros N. destruct (analyze_is_sentiment t) as [s [A _]].
  unfold create_review.
  destruct (negb (nonempty (strip t))) eqn:E.
  - apply nonempty_strip in E. contradiction.
  - unfold bind, lift. rewrite A.
    change (create now t s db <> Raise (ValueError msg)).
    unfold create. cbv zeta.
    destruct (negb (encodable t && encodable s && encodable now));
      [intros H; discriminate H|].
    destruct (max_rowid <=? seq db); intros H; discriminate H.
Qed.

Lemma create_review_raises (now : str) (v : pyobj) (db : DB) :
  (forall t, v = PyStr t -> strip t = []) ->
  create_review lower now v db = Raise (ValueError "Text must be a non-empty string").
Proof.
  destruct v as [| b | n | t]; intros H; try reflexivity.
  unfold create_review.
  destruct (negb (nonempty (strip t))) eqn:E; [reflexivity|].
  specialize (H t eq_refl). apply nonempty_strip in H. congruence.
Qed.

Lemma row_ok_seq (db : DB) (n : Z) (l : list Review) (r : Review) :
  seq db <= n -> row_ok db r -> row_ok (mkDB l n) r.
Proof.
  unfold row_ok; simpl. intuition lia.
Qed.

(** Every call of the service keeps the database consistent. *)
Lemma consistent_step (c : call) (db : DB) :
  consistent db -> consistent (step lower c db).
Proof.
  intros [P [S F]]. destruct c as [now v | f | review_id]; unfold step.
  - unfold db_after.
    destruct (create_review lower now v db) as [[r db']|e] eqn:E;
      [|repeat split; assumption].
    apply create_review_inv in E.
    destruct E as [t [s [-> [N [A [Er ->]]]]]].
    destruct (analyze_is_sentiment t) as [s' [A' Hs]].
    assert (s' = s) by congruence. subst s'.
    assert (B : Forall (fun x => id x < id r) (rows db)).
    { rewrite Forall_forall in *. intros x I. apply F in I.
      destruct I as [I _]. subst r. simpl. lia. }
    unfold consistent. simpl. rewrite (insert_row_last _ _ B).
    split; [lia|]. split.
    + rewrite map_app. simpl. apply sorted_snoc; [exact S|].
      rewrite Forall_forall in *. intros n I.
      apply in_map_iff in I. destruct I as [x [<- I]]. apply B. exact I.
    + apply Forall_app. split.
      * rewrite Forall_forall in *. intros x I.
        apply row_ok_seq with (db := db); [lia | apply F; exact I].
      * constructor; [|constructor]. subst r. unfold row_ok; simpl.
        repeat split; auto; lia.
  - unfold get_reviews. rewrite find_all_db_after. repeat split; assumption.
  - unfold delete_review.
    destruct (delete_db_after review_id db) as [E | E]; rewrite E;
      [repeat split; assumption|].
    unfold consistent; simpl. split; [exact P|].
    split; [apply sorted_filter; exact S|].
    rewrite Forall_forall in *. intros x I. apply filter_In in I.
    apply row_ok_seq with (db := db); [lia | apply F; tauto].
Qed.

Lemma reachable_consistent (db : DB) : reachable lower db -> consistent db.
Proof.
  induction 1 as [|c db R IH].
  - unfold consistent; simpl. repeat split; [lia | constructor | constructor].
  - apply consistent_step. exact IH.
Qed.

Lemma sentiment_nonempty (s : str) : is_sentiment s -> nonempty s = true.
Proof.
  intros [-> | [-> | ->]]; reflexivity.
Qed.


(* ----------------------------------------------------------------- *)
(** *** The analyzer *)

(** C1. Whatever the text (in particular every text that is not empty):
    when a negated phrase occurs in the lowercased text, [analyze] returns
    negative; when none occurs and a positive stem does, it returns
    positive, and nothing is asked of the negative stems, which may occur
    as well. *)
Theorem analyze_priority (text : str) :
  ((exists w, In w negative_phrases /\ occurs_in w (lower text)) ->
     analyze lower (PyStr text) = Ok negative)
  /\ ((forall w, In w negative_phrases -> ~ occurs_in w (lower text)) ->
      (exists w, In w POSITIVE_WORDS /\ occurs_in w (lower text)) ->
      analyze lower (PyStr text) = Ok positive).
Proof.
  unfold analyze.
  destruct (negb (nonempty (strip text))) eqn:E.
  - apply nonempty_strip in E. split.
    + intros H. apply any_in_spec in H.
      rewrite blank_text_no_word in H by (reflexivity || exact E). discriminate.
    + intros _ H. apply any_in_spec in H.
      rewrite blank_text_no_word in H by (reflexivity || exact E). discriminate.
  - split.
    + intros H. apply any_in_spec in H. rewrite H. reflexivity.
    + intros N H. apply any_in_none in N. apply any_in_spec in H.
      rewrite N, H. reflexivity.
Qed.

(** C3, as the code has it. A text in whose lowercased form a negative stem
    occurs, no negated phrase occurs and no positive stem occurs is
    classified negative. *)
Theorem analyze_negative_stem (text : str) :
  (exists w, In w NEGATIVE_WORDS /\ occurs_in w (lower text)) ->
  (forall w, In w negative_phrases -> ~ occurs_in w (lower text)) ->
  (forall w, In w POSITIVE_WORDS -> ~ occurs_in w (lower text)) ->
  analyze lower (PyStr text) = Ok negative.
Proof.
  intros H N P. apply any_in_spec in H. apply any_in_none in N, P.
  unfold analyze.
  destruct (negb (nonempty (strip text))) eqn:E.
  - apply nonempty_strip in E.
    rewrite blank_text_no_word in H by (reflexivity || exact E). discriminate.
  - rewrite N, P, H. reflexivity.
Qed.

(* ----------------------------------------------------------------- *)
(** *** Creating and listing *)

(** C2. When [create_review] returns for a string [t], a following
    [get_reviews()] lists a record with exactly the text [t] and the
    sentiment that [analyze] gives for [t]: the one that was returned. *)
Theorem create_review_round_trip (now t : str) (db db' : DB) (r : Review) :
  create_review lower now (PyStr t) db = Ok (r, db') ->
  exists l s,
    get_reviews None db' = Ok (l, db')
    /\ analyze lower (PyStr t) = Ok s
    /\ In r l /\ text r = t /\ sentiment r = s.
Proof.
  intros H. apply create_review_inv in H.
  destruct H as [t' [s [Et [_ [A [Er ->]]]]]].
  inversion Et; subst t'. exists (insert_row r (rows db)), s.
  split; [reflexivity|]. split; [exact A|].
  split; [apply insert_row_In; auto|]. subst r. auto.
Qed.

(** C4, as the code has it. [create_review] raises its ValueError, the one
    with the text "Text must be a non-empty string", exactly when the
    argument is None, or is no string, or is a string that is empty once
    stripped. For a string that is not blank and can be bound, at a time
    that can be bound and with ids left, it returns a record that is in the
    table, with the text as given and the sentiment [analyze] gives for it.
    For a string that is not blank and cannot be bound it raises the
    UnicodeEncodeError of the binding. *)
Theorem create_review_validation (now : str) (v : pyobj) (db : DB) :
  (create_review lower now v db =
     Raise (ValueError "Text must be a non-empty string")
   <-> v = PyNone \/ (forall t, v <> PyStr t)
       \/ (exists t, v = PyStr t /\ strip t = []))
  /\ (forall t, v = PyStr t -> strip t <> [] ->
      encodable t = true -> encodable now = true -> seq db < max_rowid ->
      exists s r db',
        analyze lower (PyStr t) = Ok s
        /\ create_review lower now v db = Ok (r, db')
        /\ sentiment r = s /\ text r = t /\ In r (rows db'))
  /\ (forall t, v = PyStr t -> strip t <> [] -> encodable t = false ->
      create_review lower now v db =
        Raise (UnicodeEncodeError "surrogates not allowed")).
Proof.
  split; [|split].
  - split.
    + intros H. destruct v as [| b | n | t]; auto;
        try (right; left; intros t; discriminate).
      destruct (strip t) as [|c u] eqn:E; [right; right; eauto|].
      exfalso. apply (create_review_nonblank now t db
                        "Text must be a non-empty string"); [congruence|].
      exact H.
    + intros H. apply create_review_raises. intros t ->.
      destruct H as [H | [H | [t' [Et B]]]];
        [discriminate | destruct (H t eq_refl) | congruence].
  - intros t -> N Et En L.
    destruct (create_review_ok now t db N Et En L) as [s [A C]].
    eexists s, _, _. split; [exact A|]. split; [exact C|].
    simpl. repeat split. apply insert_row_In. auto.
  - intros t -> N Et. apply create_review_unencodable; assumption.
Qed.

(** C5, as the code has it. A filter that is one of the three sentiments
    returns the rows with that sentiment and no others, in every database.
    So does every filter that is a non-empty string and can be bound: it is
    passed on as an equality condition, and returns nothing when the
    sentiment of every row is one of the three and the filter is not, as in
    every database the service produced. A non-empty filter that cannot be
    bound raises the UnicodeEncodeError of the binding, and the empty
    string is not passed on: it returns every row. *)
Theorem get_reviews_filter (db : DB) (s : str) :
  (is_sentiment s ->
     exists l, get_reviews (Some s) db = Ok (l, db)
       /\ forall r, In r l <-> In r (rows db) /\ sentiment r = s)
  /\ (s <> [] -> encodable s = true ->
      exists l, get_reviews (Some s) db = Ok (l, db)
        /\ (forall r, In r l <-> In r (rows db) /\ sentiment r = s)
        /\ (~ is_sentiment s ->
            (forall r, In r (rows db) -> is_sentiment (sentiment r)) ->
            l = []))
  /\ (reachable lower db -> s <> [] -> encodable s = true ->
      ~ is_sentiment s -> get_reviews (Some s) db = Ok ([], db))
  /\ (s <> [] -> encodable s = false ->
      get_reviews (Some s) db =
        Raise (UnicodeEncodeError "surrogates not allowed"))
  /\ get_reviews (Some []) db = Ok (rows db, db).
Proof.
  assert (G : s <> [] -> encodable s = true ->
              get_reviews (Some s) db =
                Ok (filter (fun r => str_eqb (sentiment r) s) (rows db), db)).
  { intros N E. unfold get_reviews, find_all.
    destruct s as [|c u]; [congruence|]. cbn [nonempty]. rewrite E. reflexivity. }
  assert (M : forall r,
             In r (filter (fun r => str_eqb (sentiment r) s) (rows db))
             <-> In r (rows db) /\ sentiment r = s).
  { intros r. rewrite filter_In, str_eqb_eq. tauto. }
  assert (Z : (forall r, In r (rows db) -> is_sentiment (sentiment r)) ->
              ~ is_sentiment s ->
              filter (fun r => str_eqb (sentiment r) s) (rows db) = []).
  { intros A U. apply filter_none. intros r I. apply str_eqb_neq.
    intros E. apply U. rewrite <- E. apply A. exact I. }
  split; [|split; [|split; [|split]]].
  - intros H. eexists. split; [|exact M].
    apply G; [|apply sentiment_encodable; exact H].
    intros ->. apply sentiment_nonempty in H. discriminate.
  - intros N E. eexists. split; [apply G; assumption|]. split; [exact M|].
    intros U A. apply Z; assumption.
  - intros R N E U. rewrite (G N E), Z; auto.
    intros r I. apply reachable_consistent in R. destruct R as [_ [_ F]].
    rewrite Forall_forall in F. apply F in I. apply I.
  - intros N E. apply find_all_unencodable; assumption.
  - reflexivity.
Qed.

(** C10. The empty string as filter selects as no filter does: [find_all]
    and [get_reviews] return every row of the table. *)
Theorem find_all_empty_filter (db : DB) :
  find_all (Some (utf8 "")) db = Ok (rows db, db)
  /\ get_reviews (Some (utf8 "")) db = Ok (rows db, db)
  /\ find_all (Some (utf8 "")) db = find_all None db.
Proof.
  repeat split.
Qed.

(* ----------------------------------------------------------------- *)
(** *** Deleting *)



(* ----------------------------------------------------------------- *)
(** *** Order of the listing and the invariant *)





(** C9. In every database that calls of [create_review], [get_reviews] and
    [delete_review] produce from a new one, each row has a text that is not
    empty and a sentiment that is positive, negative or neutral; and a call
    changes no row: a row of the database after the call that has the id of
    a row before it is that row. *)
Theorem service_invariant (db : DB) :
  reachable lower db ->
  (forall r, In r (rows db) -> text r <> [] /\ is_sentiment (sentiment r))
  /\ (forall c r r',
       In r (rows db) -> In r' (rows (step lower c db)) ->
       id r' = id r -> r' = r).
Proof.
  intros R. pose proof (reachable_consistent _ R) as [P [S F]].
  rewrite Forall_forall in F. split.
  - intros r I. apply F in I. destruct I as [_ [N H]]. split; [|exact H].
    intros E. apply N. rewrite E. reflexivity.
  - intros c r r' I I' E.
    assert (Old : In r' (rows db) -> r' = r)
      by (intros J; apply (sorted_id_inj (rows db)); assumption).
    destruct c as [now v | g | review_id]; unfold step, db_after in I'.
    + destruct (create_review lower now v db) as [[n db']|e] eqn:C; [|auto].
      apply create_review_inv in C.
      destruct C as [t [s [_ [_ [_ [En ->]]]]]].
      simpl in I'. apply insert_row_In in I'. destruct I' as [->|J]; [|auto].
      apply F in I. destruct I as [I _]. subst n. simpl in E. lia.
    + fold (db_after (get_reviews g) db) in I'. unfold get_reviews in I'.
      rewrite find_all_db_after in I'. auto.
    + fold (db_after (delete_review review_id) db) in I'.
      unfold delete_review in I'.
      destruct (delete_db_after review_id db) as [D | D]; rewrite D in I';
        [auto|].
      simpl in I'. apply filter_In in I'. tauto.
Qed.

End Properties.

(* ================================================================= *)
(** ** The scenarios of the tests *)

Example analyze_scenarios :
  analyze lower_basic (PyStr (utf8 "Отличный продукт!")) = Ok positive
  /\ analyze lower_basic (PyStr (utf8 "Мне очень не нравится")) = Ok negative
  /\ analyze lower_basic (PyStr (utf8 "Это обычный продукт")) = Ok neutral
  /\ analyze lower_basic (PyStr (utf8 "")) = Ok neutral
  /\ analyze lower_basic (PyStr (utf8 "   ")) = Ok neutral
  /\ analyze lower_basic PyNone = Raise (ValueError "Text must be a string")
  /\ analyze lower_basic (PyInt 123) = Raise (ValueError "Text must be a string").
Proof.
  repeat split.
Qed.

(** The negative stems "неудобн" and "недоволен" contain the positive stems
    "удобн" and "доволен", which are tested first. *)
Example negative_stems_containing_positive_ones :
  analyze lower_basic (PyStr (utf8 "Неудобно")) = Ok positive
  /\ analyze lower_basic (PyStr (utf8 "Я недоволен")) = Ok positive.
Proof.
  split; reflexivity.
Qed.

Example first_review_has_id_1 :
  rows one_review = [mkReview 1 (utf8 "Хороший товар") positive noon]
  /\ seq one_review = 1.
Proof.
  split; reflexivity.
Qed.

Example delete_on_empty_store :
  delete_review 999999 (_init_db None) = Ok (false, _init_db None).
Proof.
  reflexivity.
Qed.

Lemma two_reviews_reachable : reachable lower_basic two_reviews.
Proof.
  unfold two_reviews, one_review. do 2 apply reachable_step. apply reachable_init.
Qed.

(* ================================================================= *)
(** ** The theorems at concrete inputs *)

Lemma analyze_priority_witness :
  analyze lower_basic (PyStr (utf8 "Мне очень не нравится")) = Ok negative
  /\ analyze lower_basic (PyStr (utf8 "Плохо, но удобно")) = Ok positive.
Proof.
  split.
  - apply (analyze_priority lower_basic lower_basic_blank
             (utf8 "Мне очень не нравится")).
    exists (utf8 "не нравится").
    split; [apply in_words | apply contains_spec]; reflexivity.
  - apply (analyze_priority lower_basic lower_basic_blank
             (utf8 "Плохо, но удобно")).
    + apply any_in_none. reflexivity.
    + exists (utf8 "удобн").
      split; [apply in_words | apply contains_spec]; reflexivity.
Defined.

(** C3 as stated fails: a negative stem occurs in "Хорошо, но плохо" and no
    negated phrase does, and the text is classified positive. *)
Lemma negative_stem_not_always_negative :
  ~ (forall text,
       (exists w, In w NEGATIVE_WORDS /\ occurs_in w (lower_basic text)) ->
       (forall w, In w negative_phrases -> ~ occurs_in w (lower_basic text)) ->
       analyze lower_basic (PyStr text) = Ok negative).
Proof.
  intros H. specialize (H (utf8 "Хорошо, но плохо")).
  assert (P : analyze lower_basic (PyStr (utf8 "Хорошо, но плохо")) = Ok positive)
    by reflexivity.
  rewrite H in P.
  - discriminate.
  - exists (utf8 "плох").
    split; [apply in_words | apply contains_spec]; reflexivity.
  - apply any_in_none. reflexivity.
Qed.

Lemma analyze_negative_stem_witness :
  analyze lower_basic (PyStr (utf8 "Это ужасный продукт!")) = Ok negative.
Proof.
  apply (analyze_negative_stem lower_basic lower_basic_blank).
  - exists (utf8 "ужасн").
    split; [apply in_words | apply contains_spec]; reflexivity.
  - apply any_in_none. reflexivity.
  - apply any_in_none. reflexivity.
Defined.

Lemma create_review_round_trip_witness :
  exists l s,
    get_reviews None one_review = Ok (l, one_review)
    /\ analyze lower_basic (PyStr (utf8 "Хороший товар")) = Ok s
    /\ In (mkReview 1 (utf8 "Хороший товар") positive noon) l
    /\ text (mkReview 1 (utf8 "Хороший товар") positive noon)
       = utf8 "Хороший товар"
    /\ sentiment (mkReview 1 (utf8 "Хороший товар") positive noon) = s.
Proof.
  apply (create_review_round_trip lower_basic noon (utf8 "Хороший товар")
           (_init_db None)).
  vm_compute. reflexivity.
Defined.

(** C4 as stated fails: the string of the one code point U+D800 is not
    blank, and [create_review] does not return a record for it. *)
Lemma create_review_rejects_unencodable_text :
  ~ (forall now v db t,
       v = PyStr t -> strip t <> [] ->
       exists r db', create_review lower_basic now v db = Ok (r, db')).
Proof.
  intros H.
  destruct (H noon (PyStr [0xD800]) (_init_db None) [0xD800] eq_refl)
    as [r [db' E]]; [discriminate|].
  vm_compute in E. discriminate.
Qed.

Lemma create_review_validation_witness :
  create_review lower_basic noon (PyStr (utf8 "   ")) one_review =
    Raise (ValueError "Text must be a non-empty string")
  /\ (exists r db',
        create_review lower_basic noon (PyStr (utf8 " ok ")) one_review
          = Ok (r, db')
        /\ text r = utf8 " ok " /\ sentiment r = neutral /\ In r (rows db'))
  /\ create_review lower_basic noon (PyStr [0xD800]) one_review =
       Raise (UnicodeEncodeError "surrogates not allowed").
Proof.
  split; [|split].
  - apply (create_review_validation lower_basic noon (PyStr (utf8 "   ")) one_review).
    right. right. exists (utf8 "   "). split; reflexivity.
  - destruct (create_review_validation lower_basic noon (PyStr (utf8 " ok "))
                one_review) as [_ [H _]].
    destruct (H (utf8 " ok ") eq_refl) as [s [r [db' [A [C [S [T I]]]]]]].
    + discriminate.
    + reflexivity.
    + reflexivity.
    + reflexivity.
    + exists r, db'. repeat split; try assumption.
      rewrite S. assert (N : analyze lower_basic (PyStr (utf8 " ok ")) = Ok neutral)
        by (vm_compute; reflexivity).
      congruence.
  - destruct (create_review_validation lower_basic noon (PyStr [0xD800])
                one_review) as [_ [_ H]].
    apply (H [0xD800] eq_refl); [discriminate | reflexivity].
Defined.

(** C5 as stated fails: the empty string is none of the three sentiments,
    and as a filter it returns the review of [one_review]. *)
Lemma unrecognized_filter_may_match :
  ~ (forall db s,
       reachable lower_basic db -> ~ is_sentiment s ->
       get_reviews (Some s) db = Ok ([], db)).
Proof.
  intros H. specialize (H one_review (utf8 "")).
  assert (G : get_reviews (Some (utf8 "")) one_review
              = Ok ([mkReview 1 (utf8 "Хороший товар") positive noon], one_review))
    by reflexivity.
  rewrite H in G.
  - discriminate.
  - unfold one_review. apply reachable_step, reachable_init.
  - intros [E | [E | E]]; discriminate.
Qed.

Lemma get_reviews_filter_witness :
  (exists l, get_reviews (Some negative) two_reviews = Ok (l, two_reviews)
     /\ forall r, In r l -> sentiment r = negative)
  /\ get_reviews (Some (utf8 "mixed")) two_reviews = Ok ([], two_reviews)
  /\ get_reviews (Some [0xD800]) two_reviews =
       Raise (UnicodeEncodeError "surrogates not allowed").
Proof.
  destruct (get_reviews_filter lower_basic two_reviews negative) as [H _].
  destruct (get_reviews_filter lower_basic two_reviews (utf8 "mixed"))
    as [_ [_ [U _]]].
  destruct (get_reviews_filter lower_basic two_reviews [0xD800])
    as [_ [_ [_ [X _]]]].
  split; [|split].
  - destruct H as [l [G M]]; [right; left; reflexivity|].
    exists l. split; [exact G|]. intros r I. apply M in I. tauto.
  - apply U; [exact two_reviews_reachable | discriminate | reflexivity |].
    intros [E | [E | E]]; discriminate.
  - apply X; [discriminate | reflexivity].
Defined.








Lemma service_invariant_witness :
  In (mkReview 2 (utf8 "Это ужасный продукт!") negative noon) (rows two_reviews)
  /\ text (mkReview 2 (utf8 "Это ужасный продукт!") negative noon) <> []
  /\ is_sentiment
       (sentiment (mkReview 2 (utf8 "Это ужасный продукт!") negative noon)).
Proof.
  assert (I : In (mkReview 2 (utf8 "Это ужасный продукт!") negative noon)
                (rows two_reviews)).
  { vm_compute. right. left. reflexivity. }
  split; [exact I|].
  destruct (service_invariant lower_basic two_reviews two_reviews_reachable)
    as [H _].
  exact (H _ I).
Defined.

(* ================================================================= *)
(** ** Further properties *)

Section Coverage.

Variable lower : str -> str.

Hypothesis lower_blank : forall s, strip s = [] -> lower s = s.

Lemma sentiments_distinct :
  positive <> negative /\ positive <> neutral /\ negative <> neutral.
Proof.
  repeat split; discriminate.
Qed.

(** The answer of [analyze] as a function of the three searches. *)
Lemma analyze_cases (text : str) :
  analyze lower (PyStr text) =
    Ok (if any_in negative_phrases (lower text) then negative
        else if any_in POSITIVE_WORDS (lower text) then positive
        else if any_in NEGATIVE_WORDS (lower text) then negative
        else neutral).
Proof.
  unfold analyze.
  destruct (negb (nonempty (strip text))) eqn:E.
  - apply nonempty_strip in E.
    rewrite (blank_text_no_word lower lower_blank negative_phrases text)
      by (reflexivity || exact E).
    rewrite (blank_text_no_word lower lower_blank POSITIVE_WORDS text)
      by (reflexivity || exact E).
    rewrite (blank_text_no_word lower lower_blank NEGATIVE_WORDS text)
      by (reflexivity || exact E).
    reflexivity.
  - generalize (any_in negative_phrases (lower text))
      (any_in POSITIVE_WORDS (lower text)) (any_in NEGATIVE_WORDS (lower text)).
    intros [] [] []; reflexivity.
Qed.

(** The same decision over any three distinct labels. *)
Lemma decision_table (P N U : str) (a b c : bool) :
  P <> N -> P <> U -> N <> U ->
  let answer := if a then N else if b then P else if c then N else U in
  (answer = N <-> a = true \/ (b = false /\ c = true))
  /\ (answer = P <-> a = false /\ b = true)
  /\ (answer = U <-> a = false /\ b = false /\ c = false).
Proof.
  intros D1 D2 D3. destruct a, b, c; simpl; intuition congruence.
Qed.

Lemma occurs_in_trans (p w s : str) :
  occurs_in p w -> occurs_in w s -> occurs_in p s.
Proof.
  intros [b1 [a1 ->]] [b2 [a2 ->]].
  exists (b2 ++ b1), (a1 ++ a2). rewrite <- !app_assoc. reflexivity.
Qed.

(* ----------------------------------------------------------------- *)
(** *** The analyzer *)

(** X1. [analyze] raises, and then its ValueError, exactly for an argument
    that is not a string; for a string it returns positive, negative or
    neutral. *)
Theorem analyze_raises_iff_not_str (v : pyobj) :
  (analyze lower v = Raise (ValueError "Text must be a string")
   <-> forall t, v <> PyStr t)
  /\ (forall e, analyze lower v = Raise e -> e = ValueError "Text must be a string")
  /\ (forall t, v = PyStr t ->
      exists s, analyze lower v = Ok s /\ is_sentiment s).
Proof.
  split; [|split].
  - destruct v as [| b | n | t]; simpl;
      try (split; [intros _ t; discriminate | reflexivity]).
    destruct (analyze_is_sentiment lower t) as [s [A _]].
    split.
    + intros H. change (analyze lower (PyStr t) = Raise (ValueError "Text must be a string")) in H.
      rewrite A in H. discriminate.
    + intros H. destruct (H t eq_refl).
  - intros e H. destruct v as [| b | n | t]; simpl in H;
      try (inversion H; reflexivity).
    destruct (analyze_is_sentiment lower t) as [s [A _]].
    change (analyze lower (PyStr t) = Raise e) in H. rewrite A in H. discriminate.
  - intros t ->. apply analyze_is_sentiment.
Qed.

(** X2. The decision of [analyze] on every string: negative exactly when a
    negated phrase occurs in the lowercased text, or no positive stem occurs
    and a negative stem does; positive exactly when no negated phrase occurs
    and a positive stem does; neutral exactly when no phrase and no stem
    occurs. *)
Theorem analyze_decision (text : str) :
  (analyze lower (PyStr text) = Ok negative <->
     (exists w, In w negative_phrases /\ occurs_in w (lower text))
     \/ ((forall w, In w POSITIVE_WORDS -> ~ occurs_in w (lower text))
         /\ exists w, In w NEGATIVE_WORDS /\ occurs_in w (lower text)))
  /\ (analyze lower (PyStr text) = Ok positive <->
       (forall w, In w negative_phrases -> ~ occurs_in w (lower text))
       /\ exists w, In w POSITIVE_WORDS /\ occurs_in w (lower text))
  /\ (analyze lower (PyStr text) = Ok neutral <->
       (forall w, In w negative_phrases -> ~ occurs_in w (lower text))
       /\ (forall w, In w POSITIVE_WORDS -> ~ occurs_in w (lower text))
       /\ (forall w, In w NEGATIVE_WORDS -> ~ occurs_in w (lower text))).
Proof.
  rewrite analyze_cases.
  rewrite <- !any_in_spec, <- !any_in_none.
  destruct sentiments_distinct as [D1 [D2 D3]].
  assert (I : forall x y : str, Ok x = Ok y <-> x = y)
    by (intros x y; split; [intros H; inversion H; reflexivity | congruence]).
  rewrite !I.
  exact (decision_table positive negative neutral
           (any_in negative_phrases (lower text))
           (any_in POSITIVE_WORDS (lower text))
           (any_in NEGATIVE_WORDS (lower text)) D1 D2 D3).
Qed.

(** X3. The negative stems "неудобн" and "недоволен" never decide: a text
    in whose lowercased form one of them occurs, and no negated phrase, is
    classified positive, through the positive stems "удобн" and "доволен"
    that they contain. *)
Theorem shadowed_negative_stems (text : str) :
  occurs_in (utf8 "неудобн") (lower text)
  \/ occurs_in (utf8 "недоволен") (lower text) ->
  (forall w, In w negative_phrases -> ~ occurs_in w (lower text)) ->
  In (utf8 "неудобн") NEGATIVE_WORDS /\ In (utf8 "недоволен") NEGATIVE_WORDS
  /\ analyze lower (PyStr text) = Ok positive.
Proof.
  intros H N.
  split; [apply in_words; reflexivity|]. split; [apply in_words; reflexivity|].
  rewrite analyze_cases. apply any_in_none in N. rewrite N.
  assert (P : any_in POSITIVE_WORDS (lower text) = true).
  { apply any_in_spec. destruct H as [H | H].
    - exists (utf8 "удобн"). split; [apply in_words; reflexivity|].
      apply occurs_in_trans with (w := utf8 "неудобн"); [|exact H].
      apply contains_spec. reflexivity.
    - exists (utf8 "доволен"). split; [apply in_words; reflexivity|].
      apply occurs_in_trans with (w := utf8 "недоволен"); [|exact H].
      apply contains_spec. reflexivity. }
  rewrite P. reflexivity.
Qed.

(* ----------------------------------------------------------------- *)
(** *** Ids *)

Lemma sorted_NoDup (l : list Z) : StronglySorted Z.lt l -> NoDup l.
Proof.
  induction 1 as [|x l S IH F]; constructor; [|exact IH].
  intros I. rewrite Forall_forall in F. apply F in I. lia.
Qed.

Lemma seq_step (c : call) (db : DB) : seq db <= seq (step lower c db).
Proof.
  destruct c as [now v | f | review_id]; unfold step.
  - unfold db_after.
    destruct (create_review lower now v db) as [[r db']|e] eqn:E; [|lia].
    apply create_review_inv in E. destruct E as [t [s [_ [_ [_ [_ ->]]]]]].
    simpl. lia.
  - unfold get_reviews. rewrite find_all_db_after. lia.
  - unfold delete_review.
    destruct (delete_db_after review_id db) as [E | E]; rewrite E; simpl; lia.
Qed.

Lemma seq_run (cs : list call) (db : DB) : seq db <= seq (run lower cs db).
Proof.
  revert db. induction cs as [|c cs IH]; intros db; simpl; [lia|].
  pose proof (seq_step c db). pose proof (IH (step lower c db)). lia.
Qed.

Lemma reachable_run (cs : list call) (db : DB) :
  reachable lower db -> reachable lower (run lower cs db).
Proof.
  revert db. induction cs as [|c cs IH]; intros db R; simpl; [exact R|].
  apply IH. apply reachable_step. exact R.
Qed.

(** X4. In a database the service produced, no two rows have the same id,
    and every id is at least 1 and at most the counter of ids handed out. *)
Theorem ids_unique_and_positive (db : DB) :
  reachable lower db ->
  NoDup (map id (rows db))
  /\ (forall r, In r (rows db) -> 1 <= id r <= seq db).
Proof.
  intros R. apply reachable_consistent in R. destruct R as [_ [S F]].
  split; [apply sorted_NoDup; exact S|].
  intros r I. rewrite Forall_forall in F. apply F in I. apply I.
Qed.

(** X5. An id is never handed out twice: whatever calls are made after a
    [create_review] that returned, deletions of the new record included, a
    later [create_review] that returns gives a larger id. *)
Theorem ids_never_reused
    (now now' : str) (v v' : pyobj) (cs : list call)
    (db db1 db2 : DB) (r r' : Review) :
  create_review lower now v db = Ok (r, db1) ->
  create_review lower now' v' (run lower cs db1) = Ok (r', db2) ->
  id r < id r'.
Proof.
  intros C C'.
  apply create_review_inv in C. destruct C as [t [s [_ [_ [_ [-> ->]]]]]].
  apply create_review_inv in C'. destruct C' as [t' [s' [_ [_ [_ [-> _]]]]]].
  simpl.
  pose proof (seq_run cs
    {| rows := insert_row (mkReview (seq db + 1) t s now) (rows db);
       seq := seq db + 1 |}) as H.
  simpl in H. lia.
Qed.

(* ----------------------------------------------------------------- *)
(** *** What is stored *)

(** The rows after a call are rows from before it, or the record that the
    call created. *)
Lemma step_rows (c : call) (db : DB) (r : Review) :
  In r (rows (step lower c db)) ->
  In r (rows db)
  \/ exists now t s,
       c = CreateReview now (PyStr t) /\ analyze lower (PyStr t) = Ok s
       /\ r = mkReview (seq db + 1) t s now.
Proof.
  destruct c as [now v | f | review_id]; unfold step.
  - unfold db_after.
    destruct (create_review lower now v db) as [[n db']|e] eqn:E; [|auto].
    apply create_review_inv in E. destruct E as [t [s [-> [_ [A [-> ->]]]]]].
    simpl. intros I. apply insert_row_In in I. destruct I as [-> | I]; [|auto].
    right. exists now, t, s. auto.
  - unfold get_reviews. rewrite find_all_db_after. auto.
  - unfold delete_review.
    destruct (delete_db_after review_id db) as [E | E]; rewrite E; [auto|].
    simpl. intros I. apply filter_In in I. tauto.
Qed.

(** X6. In a database the service produced, the sentiment of every row is
    the answer of [analyze] for the text of that row. *)
Theorem stored_sentiment_is_analyzed (db : DB) :
  reachable lower db ->
  forall r, In r (rows db) -> analyze lower (PyStr (text r)) = Ok (sentiment r).
Proof.
  induction 1 as [|c db R IH]; intros r I.
  - destruct I.
  - apply step_rows in I. destruct I as [I | [now [t [s [_ [A ->]]]]]].
    + apply IH. exact I.
    + simpl. exact A.
Qed.

(* ----------------------------------------------------------------- *)
(** *** Deleting and listing *)

(** In a table with ascending ids, removing the rows with one id takes out
    the one row that has it. *)
Lemma filter_unique (k : Z) (l : list Review) (r : Review) :
  StronglySorted Z.lt (map id l) -> In r l -> id r = k ->
  exists pre post,
    l = pre ++ r :: post
    /\ filter (fun x => negb (id x =? k)) l = pre ++ post.
Proof.
  induction l as [|x l IH]; simpl; intros S I E; [contradiction|].
  inversion S as [|? ? Sl Fx]; subst. rewrite Forall_forall in Fx.
  assert (L : forall y, In y l -> id x < id y)
    by (intros y Iy; apply Fx, in_map; exact Iy).
  destruct I as [-> | I].
  - exists [], l. split; [reflexivity|].
    rewrite Z.eqb_refl. simpl. apply filter_all.
    intros y Iy. apply negb_true_iff, Z.eqb_neq. apply L in Iy. lia.
  - destruct (IH Sl I eq_refl) as [pre [post [El Ef]]].
    exists (x :: pre), post. split; [simpl; congruence|].
    apply L in I. destruct (Z.eqb_spec (id x) (id r)); [lia|].
    simpl. rewrite Ef. reflexivity.
Qed.

Lemma filter_comm (p q : Review -> bool) (l : list Review) :
  filter p (filter q l) = filter q (filter p l).
Proof.
  induction l as [|x l IH]; simpl; [reflexivity|].
  destruct (p x) eqn:P, (q x) eqn:Q; simpl; rewrite ?P, ?Q, IH; reflexivity.
Qed.

Lemma delete_ok_int64 (review_id : Z) (db db' : DB) (b : bool) :
  delete review_id db = Ok (b, db') -> int64 review_id = true.
Proof.
  intros D. destruct (int64 review_id) eqn:B; [reflexivity|].
  rewrite (delete_overflow review_id db B) in D. discriminate.
Qed.

(** The listing after a deletion is the listing before it without the rows
    of the deleted id. *)
Lemma find_all_delete
    (f : option str) (review_id : Z) (db db' : DB) (b : bool)
    (l : list Review) :
  delete review_id db = Ok (b, db') ->
  find_all f db = Ok (l, db) ->
  find_all f db' = Ok (filter (fun r => negb (id r =? review_id)) l, db').
Proof.
  intros D G. pose proof (delete_ok_int64 _ _ _ _ D) as B.
  destruct (delete_spec review_id db B) as [b' [E _]].
  rewrite E in D. inversion D; subst b' db'. clear D.
  unfold find_all in *.
  destruct f as [[|c u]|]; cbn [nonempty] in *;
    try (inversion G; reflexivity).
  destruct (encodable (c :: u)); [|discriminate].
  inversion G. simpl. rewrite filter_comm. reflexivity.
Qed.

(** X7. In a database the service produced, a [delete_review] that answers
    true removes one row, the row with that id: the rows before and after it
    stay, in their order, and the counter of ids is not changed. *)
Theorem delete_removes_one_row (review_id : Z) (db db' : DB) :
  reachable lower db ->
  delete_review review_id db = Ok (true, db') ->
  exists pre r post,
    rows db = pre ++ r :: post /\ id r = review_id
    /\ rows db' = pre ++ post /\ seq db' = seq db.
Proof.
  intros R D. apply reachable_consistent in R. destruct R as [_ [S _]].
  unfold delete_review in D.
  pose proof (delete_ok_int64 _ _ _ _ D) as B.
  destruct (delete_spec review_id db B) as [b [E Hb]].
  rewrite E in D. inversion D; subst b db'. clear D.
  destruct Hb as [Hb _]. destruct (Hb eq_refl) as [r [I Er]].
  destruct (filter_unique review_id (rows db) r S I Er) as [pre [post [El Ef]]].
  exists pre, r, post. simpl. auto.
Qed.

(** X8. Whatever the filter and the id, when [delete_review] returned and
    [get_reviews] returned a list before it, [get_reviews] after it returns
    that list without the records of the id, in the same order. *)
Theorem get_reviews_after_delete
    (f : option str) (review_id : Z) (db db' : DB) (b : bool)
    (l : list Review) :
  delete_review review_id db = Ok (b, db') ->
  get_reviews f db = Ok (l, db) ->
  get_reviews f db' =
    Ok (filter (fun r => negb (id r =? review_id)) l, db').
Proof.
  unfold delete_review, get_reviews. apply find_all_delete.
Qed.

Lemma partition_length (P N U : str) (l : list Review) :
  P <> N -> P <> U -> N <> U ->
  Forall (fun r => sentiment r = P \/ sentiment r = N \/ sentiment r = U) l ->
  List.length l =
    (List.length (filter (fun r => str_eqb (sentiment r) P) l)
     + List.length (filter (fun r => str_eqb (sentiment r) N) l)
     + List.length (filter (fun r => str_eqb (sentiment r) U) l))%nat.
Proof.
  intros D1 D2 D3. induction 1 as [|x l Hx Hl IH]; simpl; [reflexivity|].
  assert (T : forall a, str_eqb a a = true) by (intros a; apply str_eqb_eq; reflexivity).
  assert (F : forall a b, a <> b -> str_eqb a b = false)
    by (intros a b; apply str_eqb_neq).
  destruct Hx as [E | [E | E]]; rewrite E, T.
  - rewrite (F P N D1), (F P U D2). simpl. lia.
  - rewrite (F N P (not_eq_sym D1)), (F N U D3). simpl. lia.
  - rewrite (F U P (not_eq_sym D2)), (F U N (not_eq_sym D3)). simpl. lia.
Qed.

(** X9. In a database the service produced, the three filters split the
    listing: every record that [get_reviews()] returns is returned for one
    of positive, negative and neutral, and the three lists have together as
    many records as the whole listing. *)
Theorem sentiment_filters_partition (db : DB) :
  reachable lower db ->
  exists la lp ln lu,
    get_reviews None db = Ok (la, db)
    /\ get_reviews (Some positive) db = Ok (lp, db)
    /\ get_reviews (Some negative) db = Ok (ln, db)
    /\ get_reviews (Some neutral) db = Ok (lu, db)
    /\ (forall r, In r la <-> In r lp \/ In r ln \/ In r lu)
    /\ List.length la = (List.length lp + List.length ln + List.length lu)%nat.
Proof.
  intros R. apply reachable_consistent in R. destruct R as [_ [_ F]].
  assert (G : Forall (fun r => is_sentiment (sentiment r)) (rows db)).
  { rewrite Forall_forall in *. intros r I. apply F in I. apply I. }
  destruct sentiments_distinct as [D1 [D2 D3]].
  unfold get_reviews, find_all.
  rewrite (sentiment_nonempty positive) by (left; reflexivity).
  rewrite (sentiment_nonempty negative) by (right; left; reflexivity).
  rewrite (sentiment_nonempty neutral) by (right; right; reflexivity).
  eexists _, _, _, _. repeat (split; [reflexivity|]).
  split.
  - intros r. simpl. rewrite !filter_In, !str_eqb_eq.
    rewrite Forall_forall in G. split.
    + intros I. specialize (G r I). unfold is_sentiment in G.
      revert G. generalize positive, negative, neutral. intros P N U G.
      destruct G as [E | [E | E]]; auto.
    + intros [[I _] | [[I _] | [I _]]]; exact I.
  - simpl. apply partition_length; assumption.
Qed.

(** X10. After a [create_review] that returned, the new record is listed
    under its own sentiment, and under no other filter that is a non-empty
    string. *)
Theorem create_review_filtered_round_trip
    (now t : str) (db db' : DB) (r : Review) :
  create_review lower now (PyStr t) db = Ok (r, db') ->
  (exists l, get_reviews (Some (sentiment r)) db' = Ok (l, db') /\ In r l)
  /\ (forall s l, s <> [] -> s <> sentiment r ->
      get_reviews (Some s) db' = Ok (l, db') -> ~ In r l).
Proof.
  intros C. apply create_review_inv in C.
  destruct C as [t' [s0 [_ [_ [A [Er ->]]]]]].
  destruct (analyze_is_sentiment lower t) as [s1 [A1 S1]].
  assert (s1 = s0) by congruence. subst s1.
  assert (Es : sentiment r = s0) by (subst r; reflexivity).
  unfold get_reviews, find_all. split.
  - rewrite Es, (sentiment_nonempty s0 S1), (sentiment_encodable s0 S1).
    eexists. split; [reflexivity|].
    simpl. apply filter_In. split; [apply insert_row_In; auto|].
    apply str_eqb_eq. exact Es.
  - intros s l N D G I. destruct s as [|c u]; [congruence|].
    cbn [nonempty] in G. destruct (encodable (c :: u)); [|discriminate].
    simpl in G. inversion G; subst l. clear G.
    apply filter_In in I. destruct I as [_ I]. apply str_eqb_eq in I. congruence.
Qed.

(* ----------------------------------------------------------------- *)
(** *** The routes *)

(** X11. For the ids that the route passes on, those that are not
    negative, the DELETE route answers 400 exactly for 0, 200 exactly for a
    positive id that can be bound and that a row has, 404 exactly for a
    positive id that can be bound and that no row has, and 500 exactly for
    an id that cannot be bound; unless it answers 200 the database is as
    before, and after a 200 the same request is answered with 404. *)
Theorem delete_route_status (review_id : Z) (db : DB) :
  0 <= review_id ->
  exists body status db',
    delete_review_route review_id db = ((body, status), db')
    /\ (status = 400 <-> review_id = 0)
    /\ (status = 200 <->
         0 < review_id /\ int64 review_id = true
         /\ exists r, In r (rows db) /\ id r = review_id)
    /\ (status = 404 <->
         0 < review_id /\ int64 review_id = true
         /\ forall r, In r (rows db) -> id r <> review_id)
    /\ (status = 500 <-> int64 review_id = false)
    /\ (status <> 200 -> db' = db)
    /\ (status = 200 ->
        delete_review_route review_id db' = ((NotFound review_id, 404), db')).
Proof.
  intros P. unfold delete_review_route, delete_review.
  destruct (Z.leb_spec review_id 0) as [L | L].
  - assert (B : int64 review_id = true).
    { unfold int64, max_rowid. apply andb_true_iff. rewrite !Z.leb_le. lia. }
    eexists _, _, _. split; [reflexivity|].
    split; [split; [intros _; lia | reflexivity]|].
    split; [split; [discriminate | intros [Q _]; lia]|].
    split; [split; [discriminate | intros [Q _]; lia]|].
    split; [split; [discriminate | congruence]|].
    split; [reflexivity | discriminate].
  - destruct (int64 review_id) eqn:B.
    + destruct (delete_spec review_id db B) as [b [E Hb]]. rewrite E.
      destruct b.
      * destruct Hb as [Hb _]. specialize (Hb eq_refl).
        eexists _, _, _. split; [reflexivity|].
        split; [split; [discriminate | lia]|].
        split; [split; [intros _; auto | reflexivity]|].
        split; [split; [discriminate|]|].
        { intros [_ [_ A]]. destruct Hb as [r [I Er]]. destruct (A r I Er). }
        split; [split; discriminate|].
        split; [intros A; destruct (A eq_refl)|].
        intros _. rewrite delete_absent; [reflexivity | exact B |].
        simpl. intros x I. apply filter_In in I. destruct I as [_ I].
        apply negb_true_iff, Z.eqb_neq in I. exact I.
      * assert (A : forall r, In r (rows db) -> id r <> review_id).
        { intros r I Er. destruct Hb as [_ Hb].
          assert (false = true) by (apply Hb; eauto). discriminate. }
        rewrite (delete_absent review_id db B A) in E. injection E as Ed.
        eexists _, _, _. split; [reflexivity|].
        split; [split; [discriminate | lia]|].
        split; [split; [discriminate|]|].
        { intros [_ [_ [r [I Er]]]]. destruct (A r I Er). }
        split; [split; [intros _; auto | reflexivity]|].
        split; [split; discriminate|].
        split; [intros _; symmetry; exact Ed | discriminate].
    + rewrite (delete_overflow review_id db B).
      eexists _, _, _. split; [reflexivity|].
      split; [split; [discriminate | lia]|].
      split; [split; [discriminate | intros [_ [Q _]]; discriminate]|].
      split; [split; [discriminate | intros [_ [Q _]]; discriminate]|].
      split; [split; reflexivity|].
      split; [reflexivity | discriminate].
Qed.

(** X12. With no filter or a filter that can be bound, as the values of a
    query parameter are, the GET route answers 200 with the selected rows
    and leaves the database as it is; after a DELETE request for an id that
    can be bound it answers with the same records in the same order,
    without those of the requested id when that id is positive; a DELETE
    request for another id leaves the database, and so the answer, as it
    was. *)
Theorem get_route_after_delete (f : option str) (review_id : Z) (db : DB) :
  bindable f ->
  exists l,
    get_reviews_route f db = ((ReviewList l, 200), db)
    /\ (forall r, In r l <-> In r (rows db) /\ selected f r)
    /\ (int64 review_id = true ->
        get_reviews_route f (snd (delete_review_route review_id db)) =
          ((ReviewList
              (if 0 <? review_id
               then filter (fun r => negb (id r =? review_id)) l
               else l), 200),
           snd (delete_review_route review_id db)))
    /\ (int64 review_id = false ->
        snd (delete_review_route review_id db) = db).
Proof.
  intros Bf.
  destruct (find_all_spec f db Bf) as [l [E [M _]]].
  exists l. unfold get_reviews_route, get_reviews.
  rewrite E. split; [reflexivity|]. split; [exact M|].
  unfold delete_review_route, delete_review. split.
  - intros B.
    destruct (Z.leb_spec review_id 0) as [L | L].
    + destruct (Z.ltb_spec 0 review_id); [lia|]. cbn [snd]. rewrite E. reflexivity.
    + destruct (Z.ltb_spec 0 review_id); [|lia].
      destruct (delete_spec review_id db B) as [b [D _]].
      pose proof (find_all_delete f review_id db _ b l D E) as G.
      rewrite D. destruct b; cbn [snd]; rewrite G; reflexivity.
  - intros B. destruct (Z.leb_spec review_id 0) as [L | L]; [reflexivity|].
    rewrite (delete_overflow review_id db B). reflexivity.
Qed.

(* ----------------------------------------------------------------- *)
(** *** Ids count the records created; case of the text *)

Lemma seq_step_accepted (c : call) (db : DB) :
  seq (step lower c db) =
    seq db + (if accepted c && (seq db <? max_rowid) then 1 else 0).
Proof.
  destruct c as [now v | f | review_id]; unfold step.
  - unfold db_after.
    destruct (create_review lower now v db) as [[r db']|e] eqn:E.
    + destruct v as [| b | n | t]; try discriminate.
      destruct (create_review_inv_bound lower now t db db' r E) as [Et [En L]].
      apply create_review_inv in E.
      destruct E as [t' [s [Ev [N [_ [_ ->]]]]]]. inversion Ev; subst t'.
      cbn [accepted seq]. rewrite Et, En.
      destruct (strip t); [congruence|].
      destruct (Z.ltb_spec (seq db) max_rowid); [simpl; lia | lia].
    + destruct (accepted (CreateReview now v) && (seq db <? max_rowid)) eqn:A;
        [|lia].
      exfalso. apply andb_true_iff in A. destruct A as [A L].
      destruct v as [| b | n | t]; try discriminate.
      cbn [accepted] in A. apply andb_true_iff in A. destruct A as [A En].
      apply andb_true_iff in A. destruct A as [N Et].
      apply Z.ltb_lt in L.
      destruct (create_review_ok lower now t db) as [s [_ C]]; auto;
        [destruct (strip t); [discriminate | congruence]|].
      congruence.
  - unfold get_reviews. rewrite find_all_db_after. simpl. lia.
  - unfold delete_review.
    destruct (delete_db_after review_id db) as [E | E]; rewrite E; simpl; lia.
Qed.

Lemma seq_run_accepted (cs : list call) (db : DB) :
  0 <= seq db <= max_rowid ->
  seq (run lower cs db) =
    Z.min (seq db + Z.of_nat (List.length (filter accepted cs))) max_rowid.
Proof.
  revert db. induction cs as [|c cs IH]; intros db B; simpl; [lia|].
  pose proof (seq_step_accepted c db) as S.
  rewrite IH.
  - rewrite S. destruct (accepted c); simpl andb; simpl List.length;
      [destruct (Z.ltb_spec (seq db) max_rowid)|]; lia.
  - rewrite S. destruct (accepted c); simpl andb;
      [destruct (Z.ltb_spec (seq db) max_rowid)|]; lia.
Qed.

(** X13. Ids count the records ever stored: after any calls on a new
    database the counter is the number of [create_review] calls that had a
    text that is not blank and can be bound, at a time that can be bound,
    and no more than the largest rowid; and a record created next gets that
    number plus one as its id, whatever was deleted. *)
Theorem ids_count_accepted_creates (cs : list call) :
  seq (run lower cs (_init_db None))
    = Z.min (Z.of_nat (List.length (filter accepted cs))) max_rowid
  /\ (forall now v r db',
       create_review lower now v (run lower cs (_init_db None)) = Ok (r, db') ->
       id r = Z.of_nat (List.length (filter accepted cs)) + 1).
Proof.
  assert (H : seq (run lower cs (_init_db None))
              = Z.min (Z.of_nat (List.length (filter accepted cs))) max_rowid).
  { rewrite seq_run_accepted; [reflexivity | unfold max_rowid; simpl; lia]. }
  split; [exact H|].
  intros now v r db' C.
  destruct v as [| b | n | t]; try discriminate.
  destruct (create_review_inv_bound lower now t _ db' r C) as [_ [_ L]].
  apply create_review_inv in C.
  destruct C as [t' [s [_ [_ [_ [-> _]]]]]]. cbn [id]. lia.
Qed.

(** X14. [analyze] sees a text through its lowercased form only: two texts
    with the same lowercased form get the same answer. *)
Theorem analyze_case_insensitive (t1 t2 : str) :
  lower t1 = lower t2 ->
  analyze lower (PyStr t1) = analyze lower (PyStr t2).
Proof.
  intros E. rewrite !analyze_cases, E. reflexivity.
Qed.

End Coverage.

(* ================================================================= *)
(** ** The further properties at concrete inputs *)

Lemma analyze_raises_iff_not_str_witness :
  analyze lower_basic (PyInt 123) = Raise (ValueError "Text must be a string")
  /\ exists s,
       analyze lower_basic (PyStr (utf8 "123")) = Ok s /\ is_sentiment s.
Proof.
  split.
  - apply (analyze_raises_iff_not_str lower_basic (PyInt 123)). discriminate.
  - destruct (analyze_raises_iff_not_str lower_basic (PyStr (utf8 "123")))
      as [_ [_ H]].
    exact (H (utf8 "123") eq_refl).
Defined.

Lemma analyze_decision_witness :
  analyze lower_basic (PyStr (utf8 "Это обычный продукт")) = Ok neutral.
Proof.
  apply (analyze_decision lower_basic lower_basic_blank).
  repeat split; apply any_in_none; vm_compute; reflexivity.
Defined.

Lemma shadowed_negative_stems_witness :
  analyze lower_basic (PyStr (utf8 "Очень неудобно")) = Ok positive.
Proof.
  apply (shadowed_negative_stems lower_basic lower_basic_blank).
  - left. apply contains_spec. vm_compute. reflexivity.
  - apply any_in_none. vm_compute. reflexivity.
Defined.

Lemma ids_unique_and_positive_witness :
  NoDup (map id (rows two_reviews)).
Proof.
  apply (ids_unique_and_positive lower_basic two_reviews two_reviews_reachable).
Defined.

Lemma ids_never_reused_witness :
  id (mkReview 1 (utf8 "Хороший товар") positive noon)
  < id (mkReview 2 (utf8 "Хороший товар") positive noon).
Proof.
  apply (ids_never_reused lower_basic noon noon
           (PyStr (utf8 "Хороший товар")) (PyStr (utf8 "Хороший товар"))
           [DeleteReview 1] (_init_db None) one_review
           (mkDB [mkReview 2 (utf8 "Хороший товар") positive noon] 2)).
  - vm_compute. reflexivity.
  - vm_compute. reflexivity.
Defined.

Lemma stored_sentiment_is_analyzed_witness :
  analyze lower_basic
    (PyStr (text (mkReview 2 (utf8 "Это ужасный продукт!") negative noon)))
  = Ok (sentiment (mkReview 2 (utf8 "Это ужасный продукт!") negative noon)).
Proof.
  apply (stored_sentiment_is_analyzed lower_basic two_reviews
           two_reviews_reachable).
  vm_compute. right. left. reflexivity.
Defined.

Lemma delete_removes_one_row_witness :
  exists pre r post,
    rows two_reviews = pre ++ r :: post /\ id r = 1
    /\ rows (mkDB [mkReview 2 (utf8 "Это ужасный продукт!") negative noon] 2)
       = pre ++ post
    /\ seq (mkDB [mkReview 2 (utf8 "Это ужасный продукт!") negative noon] 2)
       = seq two_reviews.
Proof.
  apply (delete_removes_one_row lower_basic 1 two_reviews
           (mkDB [mkReview 2 (utf8 "Это ужасный продукт!") negative noon] 2)
           two_reviews_reachable).
  vm_compute. reflexivity.
Defined.

Lemma sentiment_filters_partition_witness :
  exists la lp ln lu,
    get_reviews None two_reviews = Ok (la, two_reviews)
    /\ get_reviews (Some positive) two_reviews = Ok (lp, two_reviews)
    /\ get_reviews (Some negative) two_reviews = Ok (ln, two_reviews)
    /\ get_reviews (Some neutral) two_reviews = Ok (lu, two_reviews)
    /\ (forall r, In r la <-> In r lp \/ In r ln \/ In r lu)
    /\ List.length la = (List.length lp + List.length ln + List.length lu)%nat.
Proof.
  exact (sentiment_filters_partition lower_basic two_reviews
           two_reviews_reachable).
Defined.

Lemma create_review_filtered_round_trip_witness :
  exists l,
    get_reviews
      (Some (sentiment (mkReview 1 (utf8 "Хороший товар") positive noon)))
      one_review = Ok (l, one_review)
    /\ In (mkReview 1 (utf8 "Хороший товар") positive noon) l.
Proof.
  apply (create_review_filtered_round_trip lower_basic noon
           (utf8 "Хороший товар") (_init_db None) one_review).
  vm_compute. reflexivity.
Defined.

Lemma get_reviews_after_delete_witness :
  get_reviews (Some negative)
    (mkDB [mkReview 2 (utf8 "Это ужасный продукт!") negative noon] 2)
  = Ok (filter (fun r => negb (id r =? 1))
          [mkReview 2 (utf8 "Это ужасный продукт!") negative noon],
        mkDB [mkReview 2 (utf8 "Это ужасный продукт!") negative noon] 2).
Proof.
  apply (get_reviews_after_delete (Some negative) 1 two_reviews _ true).
  - vm_compute. reflexivity.
  - vm_compute. reflexivity.
Defined.

Lemma delete_route_status_witness :
  exists body status db',
    delete_review_route 1 one_review = ((body, status), db')
    /\ status = 200
    /\ delete_review_route 1 db' = ((NotFound 1, 404), db').
Proof.
  destruct (delete_route_status 1 one_review)
    as [body [status [db' [E [_ [H [_ [_ [_ R]]]]]]]]]; [lia|].
  assert (S : status = 200).
  { apply H. split; [lia|]. split; [reflexivity|].
    exists (mkReview 1 (utf8 "Хороший товар") positive noon).
    split; [left|]; reflexivity. }
  exists body, status, db'. split; [exact E|]. split; [exact S|].
  apply R. exact S.
Defined.

Lemma get_route_after_delete_witness :
  exists l,
    get_reviews_route (Some positive) three_reviews
      = ((ReviewList l, 200), three_reviews)
    /\ get_reviews_route (Some positive)
         (snd (delete_review_route 1 three_reviews))
       = ((ReviewList (filter (fun r => negb (id r =? 1)) l), 200),
          snd (delete_review_route 1 three_reviews)).
Proof.
  destruct (get_route_after_delete (Some positive) 1 three_reviews)
    as [l [E [_ [D _]]]]; [reflexivity|].
  exists l. split; [exact E|]. apply D. reflexivity.
Defined.

Lemma ids_count_accepted_creates_witness :
  seq (run lower_basic
         [CreateReview noon (PyStr (utf8 "Хороший товар"));
          CreateReview noon (PyStr (utf8 "   "));
          CreateReview noon (PyStr [0xD800]);
          DeleteReview 1] (_init_db None)) = 1.
Proof.
  apply (ids_count_accepted_creates lower_basic
           [CreateReview noon (PyStr (utf8 "Хороший товар"));
            CreateReview noon (PyStr (utf8 "   "));
            CreateReview noon (PyStr [0xD800]);
            DeleteReview 1]).
Defined.

Lemma analyze_case_insensitive_witness :
  analyze lower_basic (PyStr (utf8 "ОТЛИЧНО"))
  = analyze lower_basic (PyStr (utf8 "отлично")).
Proof.
  apply (analyze_case_insensitive lower_basic lower_basic_blank).
  vm_compute. reflexivity.
Defined.
